(** * Suspicious Voter Monitoring dashboard (UI.py): a shallow embedding

    The dashboard is one Streamlit script.  Every computation it performs
    is a filter, a [unique] or a group-by over the uploaded table, so the
    table is a list of rows in file order, a boolean mask is a [filter],
    and the widgets a run emits are collected in an output log. *)

From Stdlib Require Import ZArith Lia Ascii String DecimalString.
From Stdlib Require Import Floats.SpecFloat.
From stdpp Require Import base decidable list strings gmap sorting.

Local Open Scope string_scope.
Local Open Scope list_scope.
#[local] Set Warnings "-clear-no-such-hyp".

(** ** Data model: one Vote Record per row of the uploaded CSV *)

(** The columns the script reads, with the dtypes a well-formed file gives
    them: text cells as strings, [is_suspicious] as a boolean column.
    [claimed_voter_id] is only ever interpolated into an f-string, so it is
    kept as the text the cell renders to. *)
Record VoteRecord := {
  voter_id : string;
  claimed_voter_id : string;
  registered_constituency : string;
  voting_constituency : string;
  image_path : string;
  fraud_type : string;
  is_suspicious : bool
}.

(** [df]: the rows in file order. *)
Abbreviation DataFrame := (list VoteRecord).

(** ** pandas primitives *)

Section Pandas.
Context {K : Type} `{Countable K}.

(** [Series.unique()]: a hash table of the values seen so far; values
    come out in order of first appearance. *)
Fixpoint unique_go (seen : gset K) (l : list K) : list K :=
  match l with
  | [] => []
  | x :: l' =>
      if bool_decide (x ∈ seen) then unique_go seen l'
      else x :: unique_go ({[x]} ∪ seen) l'
  end.

Definition unique (l : list K) : list K := unique_go ∅ l.

(** [Series.nunique()] *)
Definition nunique (l : list K) : nat := length (unique l).

(** Number of occurrences of a key in a column. *)
Definition occurrences (k : K) (l : list K) : nat :=
  length (filter (λ x, x = k) l).

(** [groupby(keys).size().reset_index()]: one row per observed key, keys
    sorted ([sort=True] is the default), with the size of the group. *)
Definition groupby_size (R : relation K) `{∀ x y, Decision (R x y)}
    (keys : list K) : list (K * Z) :=
  (λ k, (k, Z.of_nat (occurrences k keys))) <$> merge_sort R (unique keys).
End Pandas.

(** Boolean-mask selections [df[df[col] == value]]. *)
Definition where_fraud_type (label : string) (df : DataFrame) : DataFrame :=
  filter (λ r, fraud_type r = label) df.

Definition where_suspicious (df : DataFrame) : DataFrame :=
  filter (λ r, is_suspicious r = true) df.

Definition where_voter (v : string) (df : DataFrame) : DataFrame :=
  filter (λ r, voter_id r = v) df.

(** ** Categorization (UI.py lines 43-48 and 80-85) *)

Definition IDENTITY_THEFT := "same_constituency_identity_theft".
Definition CROSS_CONSTITUENCY := "cross_constituency_voting".
Definition DOUBLE_VOTING := "double_voting".
Definition LEGITIMATE := "legitimate".

Definition identity_theft_ids (df : DataFrame) : list string :=
  unique (voter_id <$> where_fraud_type IDENTITY_THEFT df).
Definition cross_constituency_ids (df : DataFrame) : list string :=
  unique (voter_id <$> where_fraud_type CROSS_CONSTITUENCY df).
Definition double_voting_ids (df : DataFrame) : list string :=
  unique (voter_id <$> where_fraud_type DOUBLE_VOTING df).
Definition all_suspicious_ids (df : DataFrame) : list string :=
  unique (voter_id <$> where_suspicious df).

(** The dict literal [fraud_categories]; a Python dict keeps insertion
    order, which is the order the select box lists the keys in. *)
Definition fraud_categories (df : DataFrame) : list (string * list string) :=
  [ ("Same Constituency Identity Theft", identity_theft_ids df);
    ("Cross-Constituency Voting", cross_constituency_ids df);
    ("Double Voting", double_voting_ids df);
    ("All Suspicious Voters", all_suspicious_ids df) ].

(** [{k: v for k, v in fraud_categories.items() if len(v) > 0}] *)
Definition active_categories (df : DataFrame) : list (string * list string) :=
  filter (λ kv, 0 < length kv.2) (fraud_categories df).

(** [list(active_categories.keys())], the options of the first select box. *)
Definition selectable_categories (df : DataFrame) : list string :=
  fst <$> active_categories df.

(** ** Script effects: exceptions and the widgets written to the page *)

Inductive exn :=
  | ZeroDivisionError
  | OverflowError
  | MediaFileError (path : string).

Inductive outcome (A : Type) :=
  | Returned (a : A)
  | Raised (e : exn).
Arguments Returned {A} a.
Arguments Raised {A} e.

(** What a Streamlit call leaves on the page.  Elements written inside
    [with img_cols[k]:] carry the column index [k]. *)
Inductive element :=
  | Metric (label value : string)
  | Image (col : nat) (path caption : string)
  | ErrorBox (col : nat) (msg : string).

(** A piece of the script: it extends the page and either returns or
    raises; what was written before a raise stays on the page. *)
Definition Render (A : Type) : Type := list element → outcome A * list element.

Definition ret {A} (a : A) : Render A := λ page, (Returned a, page).
Definition raise {A} (e : exn) : Render A := λ page, (Raised e, page).
Definition bind {A B} (m : Render A) (k : A → Render B) : Render B :=
  λ page,
    match m page with
    | (Returned a, page') => k a page'
    | (Raised e, page') => (Raised e, page')
    end.
Definition lift {A} (o : outcome A) : Render A := λ page, (o, page).
Definition emit (w : element) : Render unit := λ page, (Returned tt, page ++ [w]).

(** [try: body except: handler] with a bare [except], which catches every
    exception. *)
Definition try_except {A} (body : Render A) (handler : Render A) : Render A :=
  λ page,
    match body page with
    | (Returned a, page') => (Returned a, page')
    | (Raised _, page') => handler page'
    end.

#[global] Instance render_ret : MRet Render := @ret.
#[global] Instance render_bind : MBind Render := λ A B k m, bind m k.

(** ** Python numbers and their formatting *)

Definition prec : Z := 53.
Definition emax : Z := 1024.

(** [str(n)] for a non-negative [int]. *)
Definition str_of_N (n : N) : string := NilZero.string_of_uint (N.to_uint n).
Definition str_of_nat (n : nat) : string := str_of_N (N.of_nat n).

(** [a / b] on two [int]s: the correctly rounded binary64 quotient of the
    exact integers (CPython's [long_true_divide]); a zero divisor raises
    [ZeroDivisionError], a quotient beyond the float range raises
    [OverflowError]. *)
Definition int_truediv (a b : Z) : outcome spec_float :=
  if (b =? 0)%Z then Raised ZeroDivisionError
  else
    let negate := xorb (a <? 0)%Z (b <? 0)%Z in
    if (a =? 0)%Z then Returned (S754_zero negate)
    else
      let '(mz, ez, lz) :=
        SFdiv_core_binary prec emax (Z.abs a) 0 (Z.abs b) 0 in
      match binary_round_aux prec emax negate mz ez lz with
      | S754_infinity _ => Raised OverflowError
      | q => Returned q
      end.

(** [float(z)] for an [int] literal, and [x * z] with the [int] operand
    converted first. *)
Definition float_of_int (z : Z) : spec_float := binary_normalize prec emax z 0 false.
Definition float_mul_int (x : spec_float) (z : Z) : spec_float :=
  SFmul prec emax x (float_of_int z).

(** The exact value [m * 2^e] times ten, rounded to an integer with ties
    to even: the digits [format(x, '.1f')] prints. *)
Definition tenths (m : positive) (e : Z) : Z :=
  match e with
  | Zneg k =>
      let num := (Zpos m * 10)%Z in
      let den := (2 ^ Zpos k)%Z in
      let q := (num / den)%Z in
      let r := (num mod den)%Z in
      match (2 * r ?= den)%Z with
      | Lt => q
      | Gt => (q + 1)%Z
      | Eq => if Z.even q then q else (q + 1)%Z
      end
  | _ => (Zpos m * 2 ^ e * 10)%Z
  end.

(** [f"{x:.1f}"] *)
Definition format_1f (x : spec_float) : string :=
  let sign (s : bool) := if s then "-" else "" in
  match x with
  | S754_nan => "nan"
  | S754_infinity s => sign s +:+ "inf"
  | S754_zero s => sign s +:+ "0.0"
  | S754_finite s m e =>
      let t := tenths m e in
      sign s +:+ str_of_N (Z.to_N (t / 10)) +:+ "." +:+ str_of_N (Z.to_N (t mod 10))
  end.

(** ** Overview statistics (UI.py lines 53-66) *)

Definition len {A} (l : list A) : Z := Z.of_nat (length l).

(** Line 65: [len(df[df['is_suspicious'] == True]) / len(df) * 100] *)
Definition fraud_rate (df : DataFrame) : outcome spec_float :=
  match int_truediv (len (where_suspicious df)) (len df) with
  | Returned q => Returned (float_mul_int q 100)
  | Raised e => Raised e
  end.

(** Line 66: the text of the metric tile, [f"{fraud_rate:.1f}%"]. *)
Definition fraud_rate_text (df : DataFrame) : outcome string :=
  match fraud_rate df with
  | Returned x => Returned (format_1f x +:+ "%")
  | Raised e => Raised e
  end.

(** The five tiles, in script order.  Nothing encloses line 65 in a
    [try], so whatever it raises leaves the script. *)
Definition render_overview (df : DataFrame) : Render unit :=
  emit (Metric "Total Votes" (str_of_nat (length df)));;
  emit (Metric "Legitimate Votes" (str_of_nat (length (where_fraud_type LEGITIMATE df))));;
  emit (Metric "Suspicious Votes" (str_of_nat (length (where_suspicious df))));;
  emit (Metric "Unique Voters" (str_of_nat (nunique (voter_id <$> df))));;
  txt ← lift (fraud_rate_text df);
  emit (Metric "Fraud Rate" txt).

(** ** Reason synthesis (UI.py lines 110-119) *)

(** The list [reasons] built for one [row]: three independent [if]s, each
    appending one clause. *)
Definition identity_theft_clause (row : VoteRecord) : string :=
  "Identity theft: Claims to be " +:+ claimed_voter_id row.
Definition cross_constituency_clause (row : VoteRecord) : string :=
  "Voting in wrong constituency: Registered in " +:+ registered_constituency row
    +:+ ", voting in " +:+ voting_constituency row.
Definition double_voting_clause : string := "Multiple voting attempts detected".

Definition reasons (row : VoteRecord) : list string :=
  (if bool_decide (fraud_type row = IDENTITY_THEFT)
   then [identity_theft_clause row] else [])
  ++ (if bool_decide (fraud_type row = CROSS_CONSTITUENCY)
      then [cross_constituency_clause row] else [])
  ++ (if bool_decide (fraud_type row = DOUBLE_VOTING)
      then [double_voting_clause] else []).

(** [sep.join(l)] *)
Definition join (sep : string) (l : list string) : string := String.concat sep l.

(** ["; ".join(reasons) if reasons else "Legitimate"] *)
Definition fraud_reason (row : VoteRecord) : string :=
  match reasons row with
  | [] => "Legitimate"
  | rs => join "; " rs
  end.

(** The [fraud_reason] column of [display_df], one cell per row of the
    selected voter. *)
Definition fraud_reason_column (voter_data : DataFrame) : list string :=
  fraud_reason <$> voter_data.

(** ** Image gallery (UI.py lines 129-136) *)

Section Gallery.
(** Whether the [i]-th call of [st.image] loads its path, and what it
    raises when it does not, is decided by the file system and the
    network, not by the script: [None] when the image loads. *)
Variable load_error : nat → string → option exn.

Definition st_image (i col : nat) (path caption : string) : Render unit :=
  match load_error i path with
  | None => emit (Image col path caption)
  | Some e => raise e
  end.

Definition st_error (col : nat) (msg : string) : Render unit :=
  emit (ErrorBox col msg).

(** The body of the [for] loop for the [i]-th path. *)
Definition show_image (i : nat) (img_path : string) : Render unit :=
  try_except
    (st_image i (i mod 4) img_path ("Image " +:+ str_of_nat (i + 1)))
    (st_error (i mod 4) ("Cannot load image: " +:+ img_path)).

(** [for i, img_path in enumerate(...)], entered at index [i]. *)
Fixpoint gallery_from (i : nat) (paths : list string) : Render unit :=
  match paths with
  | [] => mret tt
  | img_path :: rest => show_image i img_path;; gallery_from (S i) rest
  end.

Definition render_gallery (voter_data : DataFrame) : Render unit :=
  gallery_from 0 (image_path <$> voter_data).

(** What the gallery leaves on the page for the [i]-th path. *)
Definition gallery_cell (i : nat) (img_path : string) : element :=
  match load_error i img_path with
  | None => Image (i mod 4) img_path ("Image " +:+ str_of_nat (i + 1))
  | Some _ => ErrorBox (i mod 4) ("Cannot load image: " +:+ img_path)
  end.
End Gallery.

(** ** Constituency breakdown (UI.py lines 160-199) *)

(** Group keys [(voting_constituency, fraud_type)] compare as tuples. *)
Definition key_le (a b : string * string) : Prop :=
  if decide (a.1 = b.1) then String.le a.2 b.2 else String.le a.1 b.1.

#[global] Instance key_le_dec : RelDecision key_le.
Proof. intros a b. unfold key_le. destruct (decide (a.1 = b.1)); apply _. Defined.

(** Line 188: [suspicious_df.groupby([...]).size().reset_index()] *)
Definition detailed_summary (suspicious_df : DataFrame) : list (string * string * Z) :=
  groupby_size key_le ((λ r, (voting_constituency r, fraud_type r)) <$> suspicious_df).

(** A frame with a row index, column labels and a grid of cells. *)
Record Pivot (V : Type) := {
  index : list string;
  columns : list string;
  cells : list (list V)
}.
Arguments index {V} _.
Arguments columns {V} _.
Arguments cells {V} _.

(** [DataFrame.pivot]: row and column labels are the sorted distinct values
    of the two key columns; a cell with no entry is NaN ([None]). *)
Definition pivot (entries : list (string * string * Z)) : Pivot (option Z) :=
  let idx := merge_sort String.le (unique ((λ e, e.1.1) <$> entries)) in
  let cols := merge_sort String.le (unique ((λ e, e.1.2) <$> entries)) in
  let table : gmap (string * string) Z := list_to_map entries in
  {| index := idx;
     columns := cols;
     cells := (λ i, (λ c, table !! (i, c)) <$> cols) <$> idx |}.

(** [.fillna(0).astype(int)] *)
Definition fillna_int (p : Pivot (option Z)) : Pivot Z :=
  {| index := index p;
     columns := columns p;
     cells := (λ row : list (option Z), default 0%Z <$> row) <$> cells p |}.

(** The table shown under "Detailed Constituency Breakdown"; [None] is the
    [else] branch, which shows an info box and builds nothing. *)
Definition pivot_table (df : DataFrame) : option (Pivot Z) :=
  let suspicious_df := where_suspicious df in
  if bool_decide (0 < length suspicious_df)
  then Some (fillna_int (pivot (detailed_summary suspicious_df)))
  else None.






(** ** Double-voting tab (UI.py lines 229-243) *)

Record DoubleVotingRow := {
  Voter_ID : string;
  Number_of_Votes : Z;
  Constituencies : string
}.

(** The list [double_summary], one dict per voter in [double_voters]. *)
Definition double_summary (df : DataFrame) : list DoubleVotingRow :=
  (λ voter,
     {| Voter_ID := voter;
        Number_of_Votes := len (where_voter voter df);
        Constituencies :=
          join ", " (unique (voting_constituency <$> where_voter voter df)) |})
  <$> double_voting_ids df.

(** The frame shown in the tab; [None] is the info box of the [else]. *)
Definition double_voting_tab (df : DataFrame) : option (list DoubleVotingRow) :=
  if bool_decide (0 < length (double_voting_ids df))
  then Some (double_summary df)
  else None.

(** ** Vocabulary of the properties *)

(** The three labels that have a category of their own. *)
Definition known_fraud_label (ft : string) : Prop :=
  ft = IDENTITY_THEFT ∨ ft = CROSS_CONSTITUENCY ∨ ft = DOUBLE_VOTING.

#[global] Instance known_fraud_label_dec ft : Decision (known_fraud_label ft).
Proof. unfold known_fraud_label. apply _. Defined.

(** The category lists read as sets of voter IDs. *)
Definition specific_union (df : DataFrame) : gset string :=
  list_to_set (identity_theft_ids df) ∪ list_to_set (cross_constituency_ids df)
    ∪ list_to_set (double_voting_ids df).
Definition all_suspicious_set (df : DataFrame) : gset string :=
  list_to_set (all_suspicious_ids df).

(** One direction of the assumed link between the two label columns: a row
    carrying one of the three labels is flagged. *)
Definition labelled_rows_flagged (df : DataFrame) : Prop :=
  Forall (λ r, known_fraud_label (fraud_type r) → is_suspicious r = true) df.

(** No flagged row carries a fraud type outside the three labels. *)
Definition no_other_fraud_types (df : DataFrame) : Prop :=
  Forall (λ r, is_suspicious r = true → known_fraud_label (fraud_type r)) df.

(** Every voter with a flagged row also has a row with one of the labels. *)
Definition flagged_voters_labelled (df : DataFrame) : Prop :=
  Forall (λ r, is_suspicious r = true →
               Exists (λ r', voter_id r' = voter_id r
                             ∧ known_fraud_label (fraud_type r')) df) df.

(** A row for the examples: voter, voting constituency, label, flag. *)
Definition vote (v vc ft : string) (s : bool) : VoteRecord :=
  {| voter_id := v; claimed_voter_id := "V000"; registered_constituency := "R";
     voting_constituency := vc; image_path := v +:+ ".png";
     fraud_type := ft; is_suspicious := s |}.

(** The three-row scenario: A legitimate, B double voting in X and in Y. *)
Definition scenario_table : DataFrame :=
  [ vote "A" "X" LEGITIMATE false;
    vote "B" "X" DOUBLE_VOTING true;
    vote "B" "Y" DOUBLE_VOTING true ].

(** A row labelled double voting whose flag is off. *)
Definition unflagged_table : DataFrame := [ vote "A" "X" DOUBLE_VOTING false ].

(** A flagged row whose label is none of the three. *)
Definition odd_label_table : DataFrame :=
  [ vote "A" "X" LEGITIMATE false; vote "C" "Y" "ballot_stuffing" true;
    vote "B" "X" DOUBLE_VOTING true ].

Definition mixed_voter_table : DataFrame :=
  [ vote "B" "X" LEGITIMATE false; vote "B" "Y" DOUBLE_VOTING true;
    vote "B" "X" DOUBLE_VOTING true ].

(** A file system where only the file B.png is missing. *)
Definition missing_b_png (i : nat) (path : string) : option exn :=
  if bool_decide (path = "B.png") then Some (MediaFileError path) else None.

(** One flagged row among sixteen. *)
Definition one_in_sixteen : DataFrame :=
  vote "B" "X" DOUBLE_VOTING true :: replicate 15 (vote "A" "X" LEGITIMATE false).

(** The binary64 number 1.0. *)
Definition float_one : spec_float := S754_finite false 4503599627370496 (-52).

(** ** Voter selection and details (UI.py lines 87-126) *)







(** The column an element of the gallery was written to. *)
Definition element_col (w : element) : option nat :=
  match w with
  | Image col _ _ => Some col
  | ErrorBox col _ => Some col
  | Metric _ _ => None
  end.

(** ** Fraud type distribution (UI.py lines 143-144) *)

Section ValueCounts.
(** [value_counts] orders its rows by descending count; how rows of equal
    count are ordered is left to the sort of the library. *)
Variable sort_values : list (string * Z) → list (string * Z).

End ValueCounts.

(** A sort by descending count. *)
Definition count_ge (a b : string * Z) : Prop := (b.2 ≤ a.2)%Z.
#[global] Instance count_ge_dec : RelDecision count_ge.
Proof. intros a b. unfold count_ge. apply _. Defined.

(** ** Suspicious voters per constituency (UI.py lines 160-172) *)

(** Line 171: [suspicious_df.groupby('voting_constituency')['voter_id']
    .nunique().reset_index()], one row per constituency in sorted order. *)
Definition plot_summary (suspicious_df : DataFrame) : list (string * nat) :=
  (λ c, (c, nunique (voter_id <$> filter (λ r, voting_constituency r = c) suspicious_df)))
  <$> merge_sort String.le (unique (voting_constituency <$> suspicious_df)).

(** The bar chart; [None] is the [else] branch with its info box. *)
Definition bar_chart (df : DataFrame) : option (list (string * nat)) :=
  let suspicious_df := where_suspicious df in
  if bool_decide (0 < length suspicious_df) then Some (plot_summary suspicious_df)
  else None.

(** [DataFrame.pivot] refuses entries in which an (index, column) pair
    occurs twice; [None] where it raises [ValueError]. *)
Definition pivot_checked (entries : list (string * string * Z)) : option (Pivot (option Z)) :=
  if bool_decide (NoDup entries.*1) then Some (pivot entries) else None.

(** ** Identity-theft and cross-constituency tabs (UI.py lines 210-227) *)

Record TheftRow := {
  Actual_Voter : string;
  Claimed_Voter_ID : string;
  Theft_Constituency : string
}.

Record CrossRow := {
  cross_voter_id : string;
  cross_registered_constituency : string;
  cross_voting_constituency : string
}.

(** Lines 211-218: the number written after "Total Identity Theft Cases"
    and the rows of [theft_summary]; [None] is the info box. *)
Definition identity_theft_tab (df : DataFrame) : option (Z * list TheftRow) :=
  let identity_theft := where_fraud_type IDENTITY_THEFT df in
  if bool_decide (0 < length identity_theft)
  then Some (len identity_theft,
             (λ r, {| Actual_Voter := voter_id r;
                      Claimed_Voter_ID := claimed_voter_id r;
                      Theft_Constituency := voting_constituency r |}) <$> identity_theft)
  else None.

(** Lines 221-227 *)
Definition cross_constituency_tab (df : DataFrame) : option (Z * list CrossRow) :=
  let cross_const := where_fraud_type CROSS_CONSTITUENCY df in
  if bool_decide (0 < length cross_const)
  then Some (len cross_const,
             (λ r, {| cross_voter_id := voter_id r;
                      cross_registered_constituency := registered_constituency r;
                      cross_voting_constituency := voting_constituency r |}) <$> cross_const)
  else None.


(** ** Reading a binary64 number as a bound *)

(** [x] is zero or positive and at most the integer [bound]. *)
Definition float_in_range (bound : Z) (x : spec_float) : Prop :=
  match x with
  | S754_zero false => True
  | S754_finite false m e => (e ≤ 0 ∧ Z.pos m ≤ bound * 2 ^ (- e))%Z
  | _ => False
  end.

(** [x] is zero or positive and strictly below the integer [bound]. *)
Definition float_below (bound : Z) (x : spec_float) : Prop :=
  match x with
  | S754_zero false => True
  | S754_finite false m e => (e ≤ 0 ∧ Z.pos m < bound * 2 ^ (- e))%Z
  | _ => False
  end.

(** * Properties *)

(** ** [unique] *)

Section UniqueFacts.
Context {K : Type} `{Countable K}.

Lemma elem_of_unique_go (seen : gset K) (l : list K) (x : K) :
  x ∈ unique_go seen l ↔ x ∈ l ∧ x ∉ seen.
Proof.
  revert seen. induction l as [|y l IH]; intros seen; simpl.
  - rewrite !elem_of_nil. tauto.
  - case_bool_decide as Hy.
    + rewrite IH, elem_of_cons. split; [tauto|].
      intros [[->|?] ?]; tauto.
    + rewrite !elem_of_cons, IH, elem_of_union, elem_of_singleton.
      destruct (decide (x = y)) as [->|]; tauto.
Qed.

Lemma NoDup_unique_go (seen : gset K) (l : list K) : NoDup (unique_go seen l).
Proof.
  revert seen. induction l as [|y l IH]; intros seen; simpl.
  - constructor.
  - case_bool_decide; [apply IH|].
    constructor; [|apply IH].
    rewrite elem_of_unique_go, elem_of_union, elem_of_singleton. tauto.
Qed.

Lemma elem_of_unique (l : list K) (x : K) : x ∈ unique l ↔ x ∈ l.
Proof.
  unfold unique. rewrite elem_of_unique_go.
  pose proof (not_elem_of_empty (C:=gset K) x). tauto.
Qed.

Lemma NoDup_unique (l : list K) : NoDup (unique l).
Proof. apply NoDup_unique_go. Qed.

Lemma unique_nil_iff (l : list K) : unique l = [] ↔ l = [].
Proof.
  split; [|intros ->; reflexivity].
  destruct l as [|x l]; [done|]. unfold unique. simpl.
  case_bool_decide as Hx; [by apply not_elem_of_empty in Hx|done].
Qed.
End UniqueFacts.

(** ** Membership in the four category lists *)

Lemma elem_of_fraud_type_ids (label : string) (df : DataFrame) (v : string) :
  v ∈ unique (voter_id <$> where_fraud_type label df)
  ↔ ∃ r, r ∈ df ∧ voter_id r = v ∧ fraud_type r = label.
Proof.
  rewrite elem_of_unique, list_elem_of_fmap. unfold where_fraud_type.
  setoid_rewrite list_elem_of_filter. naive_solver.
Qed.

Lemma elem_of_all_suspicious_ids (df : DataFrame) (v : string) :
  v ∈ all_suspicious_ids df ↔ ∃ r, r ∈ df ∧ voter_id r = v ∧ is_suspicious r = true.
Proof.
  unfold all_suspicious_ids. rewrite elem_of_unique, list_elem_of_fmap.
  unfold where_suspicious. setoid_rewrite list_elem_of_filter. naive_solver.
Qed.

Lemma elem_of_specific_union (df : DataFrame) (v : string) :
  v ∈ specific_union df
  ↔ ∃ r, r ∈ df ∧ voter_id r = v ∧ known_fraud_label (fraud_type r).
Proof.
  unfold specific_union, identity_theft_ids, cross_constituency_ids,
    double_voting_ids, known_fraud_label.
  rewrite !elem_of_union, !elem_of_list_to_set, !elem_of_fraud_type_ids.
  naive_solver.
Qed.

Lemma elem_of_all_suspicious_set (df : DataFrame) (v : string) :
  v ∈ all_suspicious_set df ↔ ∃ r, r ∈ df ∧ voter_id r = v ∧ is_suspicious r = true.
Proof.
  unfold all_suspicious_set.
  by rewrite elem_of_list_to_set, elem_of_all_suspicious_ids.
Qed.


(** ** Categorization *)

(** C2, as stated, fails: a row labelled double voting whose flag is off
    puts its voter in "Double Voting" but not in "All Suspicious Voters",
    so the union of the three specific sets is not inside the fourth. *)
Lemma specific_union_not_subset_unflagged :
  ¬ (specific_union unflagged_table ⊆ all_suspicious_set unflagged_table).
Proof.
  intros Hsub. specialize (Hsub "A").
  rewrite elem_of_specific_union, elem_of_all_suspicious_set in Hsub.
  destruct Hsub as (r & Hr & _ & Hflag).
  - exists (vote "A" "X" DOUBLE_VOTING false).
    split; [apply list_elem_of_here|].
    split; [reflexivity|]. right; right; reflexivity.
  - apply list_elem_of_singleton in Hr as ->. discriminate Hflag.
Qed.

(** Even when flag and label agree on every row, equal sets do not exclude
    other fraud types: a voter with one labelled row and one row of another
    type is in both sets. *)
Lemma equal_sets_with_other_fraud_type :
  let df := [ vote "B" "X" DOUBLE_VOTING true; vote "B" "Y" "ballot_stuffing" true ] in
  labelled_rows_flagged df ∧ specific_union df = all_suspicious_set df
  ∧ ¬ no_other_fraud_types df.
Proof.
  split; [|split].
  - repeat constructor.
  - apply set_eq. intros v.
    rewrite elem_of_specific_union, elem_of_all_suspicious_set.
    split.
    + intros (r & Hr & <- & _). exists (vote "B" "X" DOUBLE_VOTING true).
      split; [apply list_elem_of_here|].
      apply elem_of_cons in Hr as [->|Hr]; [done|].
      by apply list_elem_of_singleton in Hr as ->.
    + intros (r & Hr & <- & _). exists (vote "B" "X" DOUBLE_VOTING true).
      split; [apply list_elem_of_here|]. split; [|right; right; reflexivity].
      apply elem_of_cons in Hr as [->|Hr]; [done|].
      by apply list_elem_of_singleton in Hr as ->.
  - intros Hno. apply Forall_cons in Hno as [_ Hno].
    apply Forall_cons in Hno as [Hno _].
    destruct (Hno eq_refl) as [Heq|[Heq|Heq]]; discriminate Heq.
Qed.

(** C2 (amended): when every row carrying one of the three labels is
    flagged, the union of the three specific sets is inside "All Suspicious
    Voters"; the two sets are equal exactly when every voter with a flagged
    row also has a row carrying one of the three labels, which is the case
    in particular when no flagged row has another fraud type. *)
Theorem specific_union_subset_all_suspicious (df : DataFrame) :
  labelled_rows_flagged df →
  specific_union df ⊆ all_suspicious_set df
  ∧ (specific_union df = all_suspicious_set df ↔ flagged_voters_labelled df)
  ∧ (no_other_fraud_types df → specific_union df = all_suspicious_set df).
Proof.
  intros Hinv. unfold labelled_rows_flagged in Hinv.
  rewrite Forall_forall in Hinv.
  assert (Hsub : specific_union df ⊆ all_suspicious_set df).
  { intros v. rewrite elem_of_specific_union, elem_of_all_suspicious_set.
    intros (r & Hr & Hv & Hlab). exists r. auto. }
  assert (Hiff : specific_union df = all_suspicious_set df ↔ flagged_voters_labelled df).
  { unfold flagged_voters_labelled. rewrite Forall_forall. split.
    - intros Heq r Hr Hflag. apply Exists_exists.
      assert (Hin : voter_id r ∈ specific_union df).
      { rewrite Heq, elem_of_all_suspicious_set. eauto. }
      apply elem_of_specific_union in Hin as (r' & ? & ? & ?). eauto.
    - intros Hall. apply set_eq. intros v. split; [apply Hsub|].
      rewrite elem_of_specific_union, elem_of_all_suspicious_set.
      intros (r & Hr & <- & Hflag).
      pose proof (Hall r Hr Hflag) as Hex. apply Exists_exists in Hex.
      destruct Hex as (r' & ? & ? & ?). eauto. }
  split; [exact Hsub|]. split; [exact Hiff|].
  intros Hno. apply Hiff. unfold no_other_fraud_types in Hno.
  unfold flagged_voters_labelled. rewrite Forall_forall in *.
  intros r Hr Hflag. apply Exists_exists. exists r. eauto.
Qed.

Lemma specific_union_subset_all_suspicious_witness :
  labelled_rows_flagged scenario_table
  ∧ specific_union scenario_table ⊆ all_suspicious_set scenario_table.
Proof.
  assert (Hinv : labelled_rows_flagged scenario_table).
  { unfold scenario_table. repeat constructor. intros [H|[H|H]]; discriminate H. }
  split; [exact Hinv|].
  exact (proj1 (specific_union_subset_all_suspicious scenario_table Hinv)).
Defined.



Lemma assoc_functional {A B} (l : list (A * B)) (k : A) (v v' : B) :
  NoDup l.*1 → (k, v) ∈ l → (k, v') ∈ l → v = v'.
Proof.
  induction l as [|[a b] l IH]; simpl; intros Hnd H1 H2.
  - by apply elem_of_nil in H1.
  - apply NoDup_cons in Hnd as [Hfresh Hnd].
    apply elem_of_cons in H1 as [H1|H1]; apply elem_of_cons in H2 as [H2|H2].
    + congruence.
    + injection H1 as -> ->. exfalso. apply Hfresh.
      apply list_elem_of_fmap. by exists (a, v').
    + injection H2 as -> ->. exfalso. apply Hfresh.
      apply list_elem_of_fmap. by exists (a, v).
    + by apply IH.
Qed.

Lemma fraud_categories_keys_NoDup (df : DataFrame) : NoDup (fraud_categories df).*1.
Proof. simpl. refine (bool_decide_unpack _ _). vm_compute. exact I. Qed.

(** C6: a category of [fraud_categories] is offered in the select box
    exactly when its list of voter IDs is not empty. *)
Theorem active_categories_nonempty (df : DataFrame) (name : string) (ids : list string) :
  (name, ids) ∈ fraud_categories df →
  (name ∈ selectable_categories df ↔ ids ≠ [])
  ∧ ((name, ids) ∈ active_categories df ↔ ids ≠ []).
Proof.
  intros Hin.
  assert (Hact : (name, ids) ∈ active_categories df ↔ ids ≠ []).
  { unfold active_categories. rewrite list_elem_of_filter. simpl.
    split.
    - intros [Hlen _] ->. simpl in Hlen. lia.
    - intros Hne. split; [|exact Hin]. destruct ids; [done|simpl; lia]. }
  split; [|exact Hact].
  rewrite <- Hact. unfold selectable_categories.
  rewrite list_elem_of_fmap. split.
  - intros ([name' ids'] & Hname & Hin'). simpl in Hname. subst name'.
    assert (ids' = ids) as ->; [|done].
    apply list_elem_of_filter in Hin' as [_ Hin'].
    eapply assoc_functional; [apply fraud_categories_keys_NoDup|done..].
  - intros Hin'. exists (name, ids). done.
Qed.

Lemma active_categories_nonempty_witness :
  "Double Voting" ∈ selectable_categories scenario_table
  ∧ "Cross-Constituency Voting" ∉ selectable_categories scenario_table.
Proof.
  split.
  - apply (active_categories_nonempty scenario_table "Double Voting" ["B"]);
      [|done]. unfold fraud_categories. do 2 apply list_elem_of_further.
    apply list_elem_of_here.
  - intros Hin.
    apply (active_categories_nonempty scenario_table "Cross-Constituency Voting" []) in Hin;
      [done|]. unfold fraud_categories. apply list_elem_of_further.
    apply list_elem_of_here.
Defined.

(** ** Reason synthesis *)

Lemma fraud_labels_distinct :
  IDENTITY_THEFT ≠ CROSS_CONSTITUENCY ∧ IDENTITY_THEFT ≠ DOUBLE_VOTING
  ∧ CROSS_CONSTITUENCY ≠ DOUBLE_VOTING ∧ ¬ known_fraud_label LEGITIMATE.
Proof.
  repeat split; try discriminate.
  intros [H|[H|H]]; discriminate H.
Qed.

(** The reason as a case distinction on the label alone. *)
Lemma fraud_reason_cases (row : VoteRecord) :
  fraud_reason row
  = if decide (fraud_type row = IDENTITY_THEFT) then identity_theft_clause row
    else if decide (fraud_type row = CROSS_CONSTITUENCY) then cross_constituency_clause row
    else if decide (fraud_type row = DOUBLE_VOTING) then double_voting_clause
    else "Legitimate".
Proof.
  destruct fraud_labels_distinct as (H12 & H13 & H23 & _).
  unfold fraud_reason, reasons.
  repeat case_bool_decide; repeat case_decide; try done; congruence.
Qed.

Lemma length_reasons (row : VoteRecord) : (length (reasons row) ≤ 1)%nat.
Proof.
  destruct fraud_labels_distinct as (H12 & H13 & H23 & _).
  unfold reasons. repeat case_bool_decide; simpl; try lia; congruence.
Qed.




(** C10: the three clause conditions exclude one another, [reasons] never
    holds more than one clause, and the reason is one of four strings: the
    clause picked by the label, or "Legitimate". *)
Theorem fraud_reason_one_of_four (row : VoteRecord) :
  ¬ (fraud_type row = IDENTITY_THEFT ∧ fraud_type row = CROSS_CONSTITUENCY)
  ∧ ¬ (fraud_type row = IDENTITY_THEFT ∧ fraud_type row = DOUBLE_VOTING)
  ∧ ¬ (fraud_type row = CROSS_CONSTITUENCY ∧ fraud_type row = DOUBLE_VOTING)
  ∧ (length (reasons row) ≤ 1)%nat
  ∧ fraud_reason row = default "Legitimate" (head (reasons row))
  ∧ fraud_reason row
    ∈ [ identity_theft_clause row; cross_constituency_clause row;
        double_voting_clause; "Legitimate" ]
  ∧ fraud_reason row
    = (if decide (fraud_type row = IDENTITY_THEFT) then identity_theft_clause row
       else if decide (fraud_type row = CROSS_CONSTITUENCY) then cross_constituency_clause row
       else if decide (fraud_type row = DOUBLE_VOTING) then double_voting_clause
       else "Legitimate").
Proof.
  destruct fraud_labels_distinct as (H12 & H13 & H23 & _).
  split; [intros [? ?]; congruence|].
  split; [intros [? ?]; congruence|].
  split; [intros [? ?]; congruence|].
  split; [apply length_reasons|].
  split.
  { pose proof (length_reasons row) as Hlen. unfold fraud_reason.
    destruct (reasons row) as [|c [|c' rs]]; simpl in *; [done|done|lia]. }
  split; [|apply fraud_reason_cases].
  rewrite fraud_reason_cases. repeat case_decide.
  - apply list_elem_of_here.
  - apply list_elem_of_further, list_elem_of_here.
  - do 2 apply list_elem_of_further. apply list_elem_of_here.
  - do 3 apply list_elem_of_further. apply list_elem_of_here.
Qed.

Lemma fraud_reason_one_of_four_witness :
  fraud_reason (vote "B" "X" DOUBLE_VOTING true) = "Multiple voting attempts detected"
  ∧ (length (reasons (vote "B" "X" DOUBLE_VOTING true)) ≤ 1)%nat.
Proof.
  pose proof (fraud_reason_one_of_four (vote "B" "X" DOUBLE_VOTING true))
    as (_ & _ & _ & Hlen & _ & _ & Hcase).
  split; [exact Hcase|exact Hlen].
Defined.

(** ** Image gallery *)

Section GalleryFacts.
Variable load_error : nat → string → option exn.

Lemma show_image_run (i : nat) (img_path : string) (page : list element) :
  show_image load_error i img_path page
  = (Returned tt, page ++ [gallery_cell load_error i img_path]).
Proof.
  unfold show_image, try_except, st_image, st_error, gallery_cell, emit, raise.
  by destruct (load_error i img_path).
Qed.

Lemma gallery_from_run (i : nat) (paths : list string) (page : list element) :
  gallery_from load_error i paths page
  = (Returned tt, page ++ imap (λ j, gallery_cell load_error (i + j)) paths).
Proof.
  revert i page. induction paths as [|p paths IH]; intros i page; simpl.
  - by rewrite app_nil_r.
  - unfold mbind, render_bind, bind. rewrite show_image_run, IH.
    rewrite <- app_assoc. simpl. rewrite Nat.add_0_r.
    do 3 f_equal. apply imap_ext. intros j x _. simpl. f_equal. lia.
Qed.
End GalleryFacts.

(** C9: whichever calls of [st.image] fail, and whatever they raise, the
    gallery loop returns normally; it leaves one element per image, in
    order: the image when it loads and otherwise an error box naming the
    path; the code that follows the loop runs on the page so extended. *)
Theorem render_gallery_tolerates_failures
    (load_error : nat → string → option exn) (voter_data : DataFrame)
    (page : list element) {A : Type} (rest : Render A) :
  let shown := imap (gallery_cell load_error) (image_path <$> voter_data) in
  render_gallery load_error voter_data page = (Returned tt, page ++ shown)
  ∧ (render_gallery load_error voter_data ≫= λ _, rest) page = rest (page ++ shown)
  ∧ length shown = length voter_data
  ∧ (∀ i r, voter_data !! i = Some r →
       shown !! i
       = Some (match load_error i (image_path r) with
               | None => Image (i mod 4) (image_path r) ("Image " +:+ str_of_nat (i + 1))
               | Some _ => ErrorBox (i mod 4) ("Cannot load image: " +:+ image_path r)
               end)).
Proof.
  intros shown.
  assert (Hrun : render_gallery load_error voter_data page = (Returned tt, page ++ shown)).
  { unfold render_gallery. rewrite gallery_from_run. done. }
  split; [exact Hrun|]. split; [|split].
  - unfold mbind, render_bind, bind. by rewrite Hrun.
  - unfold shown. by rewrite length_imap, length_fmap.
  - intros i r Hr. unfold shown. rewrite list_lookup_imap, list_lookup_fmap, Hr.
    done.
Qed.

Lemma render_gallery_tolerates_failures_witness :
  render_gallery missing_b_png scenario_table []
  = (Returned tt,
     [ Image 0 "A.png" "Image 1";
       ErrorBox 1 "Cannot load image: B.png";
       ErrorBox 2 "Cannot load image: B.png" ]).
Proof.
  exact (proj1 (render_gallery_tolerates_failures
                  missing_b_png scenario_table [] (mret tt))).
Defined.

(** ** Integer true division *)

Section TrueDivision.
Local Open Scope Z_scope.

Lemma digits2_pos_size (p : positive) : digits2_pos p = Pos.size p.
Proof. induction p; simpl; congruence. Qed.

Lemma Zdigits2_log2 (m : Z) : 0 < m → Zdigits2 m = Z.log2 m + 1.
Proof.
  destruct m as [|p|p]; try lia. intros _. simpl.
  destruct p; simpl; rewrite ?digits2_pos_size; lia.
Qed.

Lemma Zdigits2_nonneg (m : Z) : 0 ≤ Zdigits2 m.
Proof. destruct m; simpl; lia. Qed.

Lemma Zdigits2_mono (a b : Z) : 0 ≤ a ≤ b → Zdigits2 a ≤ Zdigits2 b.
Proof.
  intros [Ha Hab]. destruct (decide (a = 0)) as [->|]; [apply Zdigits2_nonneg|].
  rewrite !Zdigits2_log2 by lia. pose proof (Z.log2_le_mono a b Hab). lia.
Qed.

Lemma Zdigits2_succ (m : Z) : 0 ≤ m → Zdigits2 (m + 1) ≤ Zdigits2 m + 1.
Proof.
  intros Hm. destruct (decide (m = 0)) as [->|]; [simpl; lia|].
  rewrite !Zdigits2_log2 by lia. pose proof (Z.log2_succ_le m). unfold Z.succ in *. lia.
Qed.

Lemma Zdigits2_pow2_bound (q k : Z) : 0 ≤ k → 0 ≤ q ≤ 2 ^ k → Zdigits2 q ≤ k + 1.
Proof.
  intros Hk [Hq Hle]. destruct (decide (q = 0)) as [->|]; [simpl; lia|].
  rewrite Zdigits2_log2 by lia.
  pose proof (Z.log2_le_mono q (2 ^ k) Hle). rewrite Z.log2_pow2 in * by lia. lia.
Qed.

Lemma iter_pos_preserves {A} (P : A → Prop) (f : A → A) :
  (∀ x, P x → P (f x)) → ∀ p x, P x → P (SpecFloat.iter_pos f p x).
Proof.
  intros Hf p. induction p as [p IH|p IH|]; intros x Hx; simpl; auto.
Qed.

Lemma shr_1_bound (B : Z) (mrs : shr_record) :
  0 ≤ shr_m mrs ∧ Zdigits2 (shr_m mrs) ≤ B →
  0 ≤ shr_m (shr_1 mrs) ∧ Zdigits2 (shr_m (shr_1 mrs)) ≤ B.
Proof.
  destruct mrs as [m r s]. simpl. intros [Hm Hd].
  destruct m as [|[p|p|]|p]; simpl in *; lia.
Qed.

Lemma shr_m_of_loc m l : shr_m (shr_record_of_loc m l) = m.
Proof. by destruct l as [|[]]. Qed.

Lemma shr_fexp_bound (m e : Z) (l : location) :
  0 ≤ m →
  let r := shr_fexp prec emax m e l in
  0 ≤ shr_m r.1 ∧ Zdigits2 (shr_m r.1) ≤ Zdigits2 m
  ∧ r.2 = Z.max e (fexp prec emax (Zdigits2 m + e)).
Proof.
  intros Hm. unfold shr_fexp, shr.
  destruct (fexp prec emax (Zdigits2 m + e) - e) as [|p|p] eqn:Hs; simpl;
    rewrite ?shr_m_of_loc; try (split; [lia|split; lia]).
  pose proof (iter_pos_preserves
                (λ x, 0 ≤ shr_m x ∧ Zdigits2 (shr_m x) ≤ Zdigits2 m)
                shr_1 (shr_1_bound _) p (shr_record_of_loc m l)) as Hit.
  destruct Hit as [? ?]; [rewrite shr_m_of_loc; lia|].
  split; [done|split; [done|lia]].
Qed.

Lemma round_nearest_even_bound (m : Z) (l : location) :
  0 ≤ m →
  0 ≤ round_nearest_even m l ∧ Zdigits2 (round_nearest_even m l) ≤ Zdigits2 m + 1.
Proof.
  intros Hm. pose proof (Zdigits2_succ m Hm).
  unfold round_nearest_even. destruct l as [|[]]; try destruct (Z.even m); lia.
Qed.

Lemma binary_round_aux_in_range (sx : bool) (mx ex : Z) (lx : location) :
  0 ≤ mx → ex ≤ -53 → Zdigits2 mx ≤ 1075 → Zdigits2 mx + ex ≤ 1 →
  ∀ s, binary_round_aux prec emax sx mx ex lx ≠ S754_infinity s.
Proof.
  intros Hmx Hex Hd HD s. unfold binary_round_aux.
  pose proof (shr_fexp_bound mx ex lx Hmx) as H1. simpl in H1.
  destruct (shr_fexp prec emax mx ex lx) as [mrs' e1]. simpl in H1.
  destruct H1 as (Hm1 & Hd1 & He1).
  pose proof (round_nearest_even_bound (shr_m mrs') (loc_of_shr_record mrs') Hm1)
    as [Hr Hrd].
  pose proof (shr_fexp_bound _ e1 loc_Exact Hr) as H2. simpl in H2.
  destruct (shr_fexp prec emax _ e1 loc_Exact) as [mrs'' e2]. simpl in H2.
  destruct H2 as (_ & _ & He2).
  assert (e2 ≤ emax - prec).
  { subst e1 e2. unfold fexp, emin, emax, prec in *. lia. }
  destruct (shr_m mrs''); try discriminate.
  destruct (Z.leb_spec e2 (emax - prec)); [discriminate|lia].
Qed.

Lemma div_eucl_fst_snd (a b : Z) : Z.div_eucl a b = (a / b, a mod b).
Proof. unfold Z.div, Z.modulo. by destruct (Z.div_eucl a b). Qed.

Lemma new_location_exact (n : Z) : new_location n 0 = loc_Exact.
Proof. unfold new_location. by destruct (Z.even n). Qed.

Lemma int_truediv_zero (n : Z) : 0 < n → int_truediv 0 n = Returned (S754_zero false).
Proof.
  intros Hn. unfold int_truediv.
  destruct (Z.eqb_spec n 0); [lia|]. destruct (Z.ltb_spec n 0); [lia|]. done.
Qed.

Lemma int_truediv_self (n : Z) : 0 < n → int_truediv n n = Returned float_one.
Proof.
  intros Hn. unfold int_truediv.
  destruct (Z.eqb_spec n 0); [lia|]. destruct (Z.ltb_spec n 0); [lia|].
  rewrite Z.abs_eq by lia. unfold SFdiv_core_binary.
  replace (Zdigits2 n + 0 - (Zdigits2 n + 0)) with 0 by lia.
  change (Z.min (fexp prec emax 0) (0 - 0)) with (-53).
  change (0 - 0 - -53) with 53.
  rewrite div_eucl_fst_snd, Z.shiftl_mul_pow2 by lia.
  rewrite (Z.mul_comm n), Z.div_mul, Z.mod_mul by lia.
  rewrite new_location_exact. vm_compute. done.
Qed.

Lemma int_truediv_returns (a b : Z) :
  0 ≤ a ≤ b → 0 < b → ∃ q, int_truediv a b = Returned q.
Proof.
  intros [Ha Hab] Hb. unfold int_truediv.
  destruct (Z.eqb_spec b 0); [lia|]. destruct (Z.ltb_spec b 0); [lia|].
  destruct (Z.eqb_spec a 0); [eauto|].
  rewrite !Z.abs_eq by lia. unfold SFdiv_core_binary.
  pose proof (Zdigits2_mono a b ltac:(lia)) as Hd.
  pose proof (Zdigits2_nonneg a).
  set (e' := Z.min (fexp prec emax (Zdigits2 a + 0 - (Zdigits2 b + 0))) (0 - 0)).
  assert (He' : -1074 ≤ e' ≤ -53).
  { unfold e', fexp, emin, prec, emax. lia. }
  destruct (0 - 0 - e') as [|k|k] eqn:Hk; try lia.
  rewrite div_eucl_fst_snd, Z.shiftl_mul_pow2 by lia.
  set (q := a * 2 ^ Z.pos k / b).
  assert (Hq : 0 ≤ q ≤ 2 ^ Z.pos k).
  { unfold q. split; [apply Z.div_pos; lia|].
    apply Z.div_le_upper_bound; [lia|]. nia. }
  pose proof (Zdigits2_pow2_bound q (Z.pos k) ltac:(lia) Hq) as Hdq.
  destruct (binary_round_aux prec emax _ q e' _) as [s|s| |s m e] eqn:Hr; eauto.
  exfalso. eapply binary_round_aux_in_range; [| | | |exact Hr]; lia.
Qed.
End TrueDivision.

(** ** Sums over a grid of counts *)

Section GridSums.
Context {A B : Type} `{Countable A} `{Countable B}.
Local Open Scope Z_scope.









End GridSums.

(** ** Group sizes and the pivot *)

Section GroupFacts.
Context {K : Type} `{Countable K}.
Context (R : relation K) `{∀ x y, Decision (R x y)}.


Lemma groupby_size_keys (keys : list K) :
  (groupby_size R keys).*1 = merge_sort R (unique keys).
Proof.
  unfold groupby_size. rewrite <- list_fmap_compose.
  rewrite <- (list_fmap_id (merge_sort R (unique keys))) at 2.
  by apply list_fmap_ext.
Qed.


Lemma NoDup_groupby_size_keys (keys : list K) : NoDup (groupby_size R keys).*1.
Proof. rewrite groupby_size_keys, merge_sort_Permutation. apply NoDup_unique. Qed.

End GroupFacts.







(** ** Double-voting tab *)



(** The three-row scenario: B is reported with two votes in "X, Y". *)
Example double_summary_scenario :
  double_voting_tab scenario_table
  = Some [ {| Voter_ID := "B"; Number_of_Votes := 2; Constituencies := "X, Y" |} ].
Proof. vm_compute. reflexivity. Qed.

(** Rows of other fraud types count towards the voter's total. *)
Example double_summary_counts_all_rows :
  double_voting_tab mixed_voter_table
  = Some [ {| Voter_ID := "B"; Number_of_Votes := 3; Constituencies := "X, Y" |} ].
Proof. vm_compute. reflexivity. Qed.

(** ** Fraud rate *)



Lemma len_pos {A} (l : list A) : l ≠ [] → (0 < len l)%Z.
Proof. destruct l; [done|]. unfold len. simpl. lia. Qed.

(** C1: on a table with no rows, line 65 divides by zero and the exception
    leaves the script after the first four tiles; no guard intervenes.
    The division by zero happens for the empty table and for no other. *)
Theorem fraud_rate_empty_table_raises (page : list element) :
  fraud_rate [] = Raised ZeroDivisionError
  ∧ fraud_rate_text [] = Raised ZeroDivisionError
  ∧ render_overview [] page
    = (Raised ZeroDivisionError,
       page ++ [ Metric "Total Votes" "0"; Metric "Legitimate Votes" "0";
                 Metric "Suspicious Votes" "0"; Metric "Unique Voters" "0" ])
  ∧ (∀ df, fraud_rate df = Raised ZeroDivisionError ↔ df = []).
Proof.
  split; [reflexivity|]. split; [reflexivity|]. split.
  - unfold render_overview, mbind, render_bind, bind, emit, lift. simpl.
    by rewrite <- !app_assoc.
  - intros df. split; [|intros ->; reflexivity].
    destruct (decide (df = [])) as [|Hne]; [done|].
    intros Hraise. unfold fraud_rate in Hraise.
    destruct (int_truediv_returns (len (where_suspicious df)) (len df)) as [q Hq].
    + unfold len, where_suspicious. pose proof (length_filter (λ r, is_suspicious r = true) df).
      lia.
    + by apply len_pos.
    + rewrite Hq in Hraise. discriminate Hraise.
Qed.



(** A third of the rows flagged shows as "33.3%", two thirds as "66.7%". *)
Example fraud_rate_scenario :
  fraud_rate_text scenario_table = Returned "66.7%"
  ∧ fraud_rate_text odd_label_table = Returned "66.7%"
  ∧ fraud_rate_text mixed_voter_table = Returned "66.7%"
  ∧ fraud_rate_text (vote "A" "X" LEGITIMATE false :: mixed_voter_table ++ scenario_table)
    = Returned "57.1%".
Proof. vm_compute. repeat split. Qed.

(** 6.25 is a tie between 6.2 and 6.3 and prints as the even one. *)
Example fraud_rate_tie_to_even :
  fraud_rate_text one_in_sixteen = Returned "6.2%".
Proof. vm_compute. reflexivity. Qed.

(** * Further properties of the script *)

Local Open Scope nat_scope.

(** ** Overview tiles *)

Section UniqueCounts.
Context {K : Type} `{Countable K}.






End UniqueCounts.




(** ** Voter selection *)







(** ** Details of a listed voter *)




Lemma filter_nonempty_iff {A} (P : A → Prop) `{∀ x, Decision (P x)} (l : list A) :
  0 < length (filter P l) ↔ ∃ x, x ∈ l ∧ P x.
Proof.
  split.
  - destruct (filter P l) as [|x l'] eqn:Hf; simpl; [lia|]. intros _.
    assert (Hx : x ∈ filter P l) by (rewrite Hf; apply list_elem_of_here).
    apply list_elem_of_filter in Hx. naive_solver.
  - intros (x & Hx & HP).
    assert (Hin : x ∈ filter P l) by (by apply list_elem_of_filter).
    destruct (filter P l); [by apply elem_of_nil in Hin|simpl; lia].
Qed.

Lemma selectable_iff (df : DataFrame) (name : string) (ids : list string) :
  (name, ids) ∈ fraud_categories df →
  name ∈ selectable_categories df ↔ 0 < length ids.
Proof.
  intros Hin. unfold selectable_categories, active_categories.
  rewrite list_elem_of_fmap. split.
  - intros ([name' ids'] & -> & Hf). apply list_elem_of_filter in Hf as [Hlen Hin'].
    simpl in *. by rewrite (assoc_functional _ _ _ _ (fraud_categories_keys_NoDup df) Hin Hin').
  - intros Hlen. exists (name, ids). split; [done|]. by apply list_elem_of_filter.
Qed.

Lemma length_unique_pos {K} `{Countable K} (l : list K) :
  0 < length (unique l) ↔ 0 < length l.
Proof.
  pose proof (unique_nil_iff l) as Hnil.
  destruct l as [|x l]; [done|].
  destruct (unique (x :: l)) as [|y u]; simpl; [|lia].
  discriminate (proj1 Hnil eq_refl).
Qed.

(** X15: the left and right halves of the page agree: a category is offered
    in the select box exactly when the view guarded by the matching
    [len(...) > 0] test is shown - the pivot table and the bar chart for
    "All Suspicious Voters", and the three tabs for the three specific
    categories. *)
Theorem panels_agree (df : DataFrame) :
  ("All Suspicious Voters" ∈ selectable_categories df ↔ is_Some (pivot_table df))
  ∧ ("All Suspicious Voters" ∈ selectable_categories df ↔ is_Some (bar_chart df))
  ∧ ("Same Constituency Identity Theft" ∈ selectable_categories df
     ↔ is_Some (identity_theft_tab df))
  ∧ ("Cross-Constituency Voting" ∈ selectable_categories df
     ↔ is_Some (cross_constituency_tab df))
  ∧ ("Double Voting" ∈ selectable_categories df ↔ is_Some (double_voting_tab df))
  ∧ (is_Some (pivot_table df) ↔ ∃ r, r ∈ df ∧ is_suspicious r = true).
Proof.
  assert (H4 : "All Suspicious Voters" ∈ selectable_categories df
               ↔ 0 < length (where_suspicious df)).
  { rewrite (selectable_iff df _ (all_suspicious_ids df)).
    - unfold all_suspicious_ids. by rewrite length_unique_pos, length_fmap.
    - unfold fraud_categories. do 3 apply list_elem_of_further. apply list_elem_of_here. }
  assert (H1 : "Same Constituency Identity Theft" ∈ selectable_categories df
               ↔ 0 < length (where_fraud_type IDENTITY_THEFT df)).
  { rewrite (selectable_iff df _ (identity_theft_ids df)).
    - unfold identity_theft_ids. by rewrite length_unique_pos, length_fmap.
    - unfold fraud_categories. apply list_elem_of_here. }
  assert (H2 : "Cross-Constituency Voting" ∈ selectable_categories df
               ↔ 0 < length (where_fraud_type CROSS_CONSTITUENCY df)).
  { rewrite (selectable_iff df _ (cross_constituency_ids df)).
    - unfold cross_constituency_ids. by rewrite length_unique_pos, length_fmap.
    - unfold fraud_categories. apply list_elem_of_further, list_elem_of_here. }
  assert (H3 : "Double Voting" ∈ selectable_categories df
               ↔ 0 < length (double_voting_ids df)).
  { apply selectable_iff.
    unfold fraud_categories. do 2 apply list_elem_of_further. apply list_elem_of_here. }
  assert (Hp : is_Some (pivot_table df) ↔ 0 < length (where_suspicious df)).
  { unfold pivot_table. case_bool_decide; split; intros Hs; try done; try (by destruct Hs); try (by eexists). }
  split; [by rewrite H4, Hp|].
  split.
  { rewrite H4. unfold bar_chart. case_bool_decide; split; intros Hs; try done; try (by destruct Hs); try (by eexists). }
  split.
  { rewrite H1. unfold identity_theft_tab. case_bool_decide; split; intros Hs; try done; try (by destruct Hs); try (by eexists). }
  split.
  { rewrite H2. unfold cross_constituency_tab.
    case_bool_decide; split; intros Hs; try done; try (by destruct Hs); try (by eexists). }
  split.
  { rewrite H3. unfold double_voting_tab.
    case_bool_decide; split; intros Hs; try done; try (by destruct Hs); try (by eexists). }
  rewrite Hp. unfold where_suspicious. apply filter_nonempty_iff.
Qed.

(** X4: the select box lists the categories in the order of the dict,
    each at most once, and lists none exactly when no row is flagged and no
    row carries one of the three labels. *)
Theorem selectable_categories_order (df : DataFrame) :
  selectable_categories df
    `sublist_of` [ "Same Constituency Identity Theft"; "Cross-Constituency Voting";
                   "Double Voting"; "All Suspicious Voters" ]
  ∧ NoDup (selectable_categories df)
  ∧ (selectable_categories df = []
     ↔ Forall (λ r, is_suspicious r = false ∧ ¬ known_fraud_label (fraud_type r)) df).
Proof.
  split; [|split].
  - unfold selectable_categories, active_categories.
    change [ "Same Constituency Identity Theft"; "Cross-Constituency Voting";
             "Double Voting"; "All Suspicious Voters" ]
      with (fraud_categories df).*1.
    apply fmap_sublist, sublist_filter.
  - pose proof (fraud_categories_keys_NoDup df) as Hnd.
    eapply sublist_NoDup; [exact Hnd|].
    unfold selectable_categories, active_categories. apply fmap_sublist, sublist_filter.
  - rewrite Forall_forall. split.
    + intros Hnil r Hr.
      assert (Hno : ∀ name, name ∉ selectable_categories df).
      { intros name. rewrite Hnil. apply not_elem_of_nil. }
      split.
      * destruct (is_suspicious r) eqn:Hs; [|done]. exfalso.
        apply (Hno "All Suspicious Voters").
        apply (selectable_iff df _ (all_suspicious_ids df)).
        { unfold fraud_categories. do 3 apply list_elem_of_further. apply list_elem_of_here. }
        assert (Hin : voter_id r ∈ all_suspicious_ids df)
          by (apply elem_of_all_suspicious_ids; eauto).
        destruct (all_suspicious_ids df); [by apply elem_of_nil in Hin|simpl; lia].
      * intros [Hl|[Hl|Hl]]; exfalso.
        -- apply (Hno "Same Constituency Identity Theft").
           apply (selectable_iff df _ (identity_theft_ids df)); [apply list_elem_of_here|].
           assert (Hin : voter_id r ∈ identity_theft_ids df)
             by (apply elem_of_fraud_type_ids; eauto).
           destruct (identity_theft_ids df); [by apply elem_of_nil in Hin|simpl; lia].
        -- apply (Hno "Cross-Constituency Voting").
           apply (selectable_iff df _ (cross_constituency_ids df));
             [apply list_elem_of_further, list_elem_of_here|].
           assert (Hin : voter_id r ∈ cross_constituency_ids df)
             by (apply elem_of_fraud_type_ids; eauto).
           destruct (cross_constituency_ids df); [by apply elem_of_nil in Hin|simpl; lia].
        -- apply (Hno "Double Voting").
           apply (selectable_iff df _ (double_voting_ids df));
             [do 2 apply list_elem_of_further; apply list_elem_of_here|].
           assert (Hin : voter_id r ∈ double_voting_ids df)
             by (apply elem_of_fraud_type_ids; eauto).
           destruct (double_voting_ids df); [by apply elem_of_nil in Hin|simpl; lia].
    + intros Hall. destruct (selectable_categories df) as [|name l] eqn:Hsel; [done|].
      exfalso.
      assert (Hin : name ∈ selectable_categories df) by (rewrite Hsel; apply list_elem_of_here).
      unfold selectable_categories in Hin.
      apply list_elem_of_fmap in Hin as ([name' ids] & _ & Hact).
      apply list_elem_of_filter in Hact as [Hlen Hcat]. simpl in Hlen.
      destruct ids as [|v ids]; [simpl in Hlen; lia|].
      assert (Hv : v ∈ v :: ids) by apply list_elem_of_here.
      unfold fraud_categories in Hcat.
      repeat (apply elem_of_cons in Hcat as [Hcat|Hcat]; [injection Hcat as _ Hids|]);
        try (by apply elem_of_nil in Hcat); rewrite Hids in Hv.
      * apply elem_of_fraud_type_ids in Hv as (r & Hr & _ & Hft).
        apply (Hall r Hr). by left.
      * apply elem_of_fraud_type_ids in Hv as (r & Hr & _ & Hft).
        apply (Hall r Hr). right; by left.
      * apply elem_of_fraud_type_ids in Hv as (r & Hr & _ & Hft).
        apply (Hall r Hr). right; by right.
      * apply elem_of_all_suspicious_ids in Hv as (r & Hr & _ & Hs).
        destruct (Hall r Hr) as [Hf _]. congruence.
Qed.

(** ** Gallery columns *)

(** X7: the gallery never indexes outside its four columns: the i-th
    element is written to column i mod 4, and two elements share a column
    exactly when their positions agree modulo 4. *)
Theorem gallery_columns (load_error : nat → string → option exn)
    (voter_data : DataFrame) (page : list element) :
  ∃ shown,
    render_gallery load_error voter_data page = (Returned tt, page ++ shown)
    ∧ length shown = length voter_data
    ∧ (∀ i w, shown !! i = Some w → element_col w = Some (i mod 4) ∧ i mod 4 < 4)
    ∧ (∀ i j w w', shown !! i = Some w → shown !! j = Some w' →
         (element_col w = element_col w' ↔ i mod 4 = j mod 4)).
Proof.
  exists (imap (gallery_cell load_error) (image_path <$> voter_data)).
  assert (Hcol : ∀ i w,
            imap (gallery_cell load_error) (image_path <$> voter_data) !! i = Some w →
            element_col w = Some (i mod 4)).
  { intros i w. rewrite list_lookup_imap.
    destruct ((image_path <$> voter_data) !! i) as [p|]; [|done]. simpl.
    intros [= <-]. unfold gallery_cell. by destruct (load_error i p). }
  split; [unfold render_gallery; by rewrite gallery_from_run|].
  split; [by rewrite length_imap, length_fmap|].
  split.
  - intros i w Hw. split; [by apply Hcol|]. apply Nat.mod_upper_bound. lia.
  - intros i j w w' Hw Hw'. rewrite (Hcol _ _ Hw), (Hcol _ _ Hw'). naive_solver.
Qed.

(** ** Sizes of groups *)

Section GroupSizes.
Context {A K : Type} `{Countable K} (f : A → K).

Lemma length_filter_key_cons (k : K) (L : list K) (l : list A) :
  k ∉ L →
  length (filter (λ x, f x ∈ k :: L) l)
  = length (filter (λ x, f x = k) l) + length (filter (λ x, f x ∈ L) l).
Proof.
  intros Hk. induction l as [|x l IH]; [done|].
  rewrite !filter_cons.
  destruct (decide (f x = k)) as [Heq|Hne].
  - rewrite decide_True by (rewrite Heq; apply list_elem_of_here).
    rewrite decide_False by (by rewrite Heq). simpl. by rewrite IH.
  - destruct (decide (f x ∈ L)) as [Hin|Hout].
    + rewrite decide_True by (by apply list_elem_of_further). simpl. rewrite IH. lia.
    + rewrite decide_False; [done|]. rewrite elem_of_cons. tauto.
Qed.

Lemma sum_group_sizes (L : list K) (l : list A) :
  NoDup L →
  sum_list_with (λ k, length (filter (λ x, f x = k) l)) L
  = length (filter (λ x, f x ∈ L) l).
Proof.
  induction 1 as [|k L Hk _ IH].
  - induction l as [|x l IHl]; [done|].
    rewrite filter_cons_False; [done|]. apply not_elem_of_nil.
  - rewrite length_filter_key_cons by done. rewrite <- IH. reflexivity.
Qed.



Lemma sum_group_sizes_le (L : list K) (l : list A) :
  NoDup L → sum_list_with (λ k, length (filter (λ x, f x = k) l)) L ≤ length l.
Proof. intros. rewrite sum_group_sizes by done. apply length_filter. Qed.
End GroupSizes.






(** ** Fraud type distribution *)

Section ValueCountsFacts.
Variable sort_values : list (string * Z) → list (string * Z).
Hypothesis sort_values_Permutation : ∀ l, sort_values l ≡ₚ l.


End ValueCountsFacts.


(** ** Suspicious voters per constituency *)








(** ** The pivot and the bar chart *)



(** X14: [pivot] fails on repeated (index, column) pairs; the grouped
    counts it is given at line 191 never repeat a pair, so it returns. *)
Theorem pivot_checked_returns (suspicious_df : DataFrame) :
  pivot_checked (detailed_summary suspicious_df)
  = Some (pivot (detailed_summary suspicious_df)).
Proof.
  unfold pivot_checked. rewrite bool_decide_eq_true_2; [done|].
  apply NoDup_groupby_size_keys.
Qed.

(** ** Row and column totals of the pivot *)





(** ** Identity-theft and cross-constituency tabs *)


(** ** Totals of the double-voting summary *)


(** ** The range of the fraud rate *)

Section FloatRange.
Local Open Scope Z_scope.

Lemma iter_pos_graded {A} (P : Z → A → Prop) (f : A → A) :
  (∀ k x, 0 ≤ k → P k x → P (k + 1) (f x)) →
  ∀ p k x, 0 ≤ k → P k x → P (k + Z.pos p) (SpecFloat.iter_pos f p x).
Proof.
  intros Hf p. induction p as [p IH|p IH|]; intros k x Hk Hx; simpl.
  - replace (k + Z.pos p~1) with (k + 1 + Z.pos p + Z.pos p) by lia.
    apply IH; [lia|]. apply IH; [lia|]. by apply Hf.
  - replace (k + Z.pos p~0) with (k + Z.pos p + Z.pos p) by lia.
    apply IH; [lia|]. by apply IH.
  - by apply Hf.
Qed.

Lemma shr_m_shr_1 (mrs : shr_record) :
  0 ≤ shr_m mrs → shr_m (shr_1 mrs) = shr_m mrs / 2.
Proof.
  destruct mrs as [m r s]. simpl. intros Hm.
  destruct m as [|[p|p|]|p]; cbn -[Z.div]; try lia; try done.
  - apply (Z.div_unique _ _ _ 1); lia.
  - apply (Z.div_unique _ _ _ 0); lia.
Qed.

Lemma shr_fexp_tight (m e : Z) (l : location) :
  0 ≤ m →
  let r := shr_fexp prec emax m e l in
  r.2 = Z.max e (fexp prec emax (Zdigits2 m + e))
  ∧ shr_m r.1 = m / 2 ^ (r.2 - e).
Proof.
  intros Hm. unfold shr_fexp, shr.
  destruct (fexp prec emax (Zdigits2 m + e) - e) as [|p|p] eqn:Hs; simpl.
  - split; [lia|]. replace (e - e) with 0 by lia.
    rewrite shr_m_of_loc. by rewrite Z.pow_0_r, Z.div_1_r.
  - split; [lia|]. replace (e + Z.pos p - e) with (0 + Z.pos p) by lia.
    apply (iter_pos_graded (λ k x, 0 ≤ shr_m x ∧ shr_m x = m / 2 ^ k) shr_1);
      [|lia|].
    + intros k x Hk [Hx Hdiv]. rewrite shr_m_shr_1 by done. split.
      * apply Z.div_pos; lia.
      * rewrite Hdiv, Z.pow_add_r, Z.pow_1_r by lia.
        rewrite Z.div_div by lia. done.
    + rewrite shr_m_of_loc, Z.pow_0_r, Z.div_1_r. done.
  - split; [lia|]. replace (e - e) with 0 by lia.
    rewrite shr_m_of_loc. by rewrite Z.pow_0_r, Z.div_1_r.
Qed.

Lemma round_nearest_even_enclosure (m : Z) (l : location) :
  m ≤ round_nearest_even m l ≤ m + 1.
Proof. unfold round_nearest_even. destruct l as [|[]]; try destruct (Z.even m); lia. Qed.

Lemma Zdigits2_lt_pow2 (m n : Z) : 0 ≤ n → 0 ≤ m < 2 ^ n → Zdigits2 m ≤ n.
Proof.
  intros Hn [Hm Hlt]. destruct (decide (m = 0)) as [->|]; [simpl; lia|].
  rewrite Zdigits2_log2 by lia.
  pose proof (proj1 (Z.log2_lt_pow2 m n ltac:(lia)) Hlt). lia.
Qed.

(** What [binary_round_aux] returns on a non-negative mantissa. *)
Lemma binary_round_aux_shape (mx ex : Z) (lx : location) :
  0 ≤ mx →
  ∃ e1 m1 e2,
    e1 = Z.max ex (fexp prec emax (Zdigits2 mx + ex))
    ∧ mx / 2 ^ (e1 - ex) ≤ m1 ≤ mx / 2 ^ (e1 - ex) + 1
    ∧ e2 = Z.max e1 (fexp prec emax (Zdigits2 m1 + e1))
    ∧ binary_round_aux prec emax false mx ex lx
      = match m1 / 2 ^ (e2 - e1) with
        | Z0 => S754_zero false
        | Z.pos m => if e2 <=? emax - prec then S754_finite false m e2
                     else S754_infinity false
        | Z.neg _ => S754_nan
        end.
Proof.
  intros Hmx. unfold binary_round_aux.
  pose proof (shr_fexp_tight mx ex lx Hmx) as H1. simpl in H1.
  destruct (shr_fexp prec emax mx ex lx) as [mrs' e1]. simpl in H1.
  destruct H1 as [He1 Hm1].
  set (m1 := round_nearest_even (shr_m mrs') (loc_of_shr_record mrs')).
  pose proof (round_nearest_even_enclosure (shr_m mrs') (loc_of_shr_record mrs')) as Hr.
  fold m1 in Hr.
  assert (0 ≤ shr_m mrs') by (rewrite Hm1; apply Z.div_pos; lia).
  pose proof (shr_fexp_tight m1 e1 loc_Exact ltac:(lia)) as H2. simpl in H2.
  destruct (shr_fexp prec emax m1 e1 loc_Exact) as [mrs'' e2]. simpl in H2.
  destruct H2 as [He2 Hm2].
  exists e1, m1, e2. rewrite <- Hm1, <- Hm2. done.
Qed.

Lemma binary_round_aux_range (B mx ex : Z) (lx : location) :
  0 ≤ mx → ex ≤ 0 → 0 < B ≤ 2 ^ 52 → mx < B * 2 ^ (- ex) →
  ∃ e1 m1 e2,
    ex ≤ e1 ≤ e2 ∧ e2 ≤ 0
    ∧ e1 = Z.max ex (fexp prec emax (Zdigits2 mx + ex))
    ∧ e2 = Z.max e1 (fexp prec emax (Zdigits2 m1 + e1))
    ∧ 0 ≤ m1 ≤ B * 2 ^ (- e1)
    ∧ binary_round_aux prec emax false mx ex lx
      = match m1 / 2 ^ (e2 - e1) with
        | Z0 => S754_zero false
        | Z.pos m => S754_finite false m e2
        | Z.neg _ => S754_nan
        end.
Proof.
  intros Hmx Hex [HB0 HB] Hlt.
  destruct (binary_round_aux_shape mx ex lx Hmx) as (e1 & m1 & e2 & He1 & Hm1 & He2 & Hres).
  assert (Hpow : 0 < 2 ^ (- ex)) by (apply Z.pow_pos_nonneg; lia).
  assert (Hd : Zdigits2 mx ≤ 52 - ex).
  { apply Zdigits2_lt_pow2; [lia|]. split; [done|].
    replace (52 - ex) with (52 + - ex) by lia. rewrite Z.pow_add_r by lia. nia. }
  assert (He1b : ex ≤ e1 ≤ 0).
  { subst e1. unfold fexp, emin, emax, prec. lia. }
  assert (Hpow1 : 0 < 2 ^ (- e1)) by (apply Z.pow_pos_nonneg; lia).
  assert (Hsplit : 2 ^ (- ex) = 2 ^ (- e1) * 2 ^ (e1 - ex)).
  { rewrite <- Z.pow_add_r by lia. f_equal. lia. }
  assert (Hpowj : 0 < 2 ^ (e1 - ex)) by (apply Z.pow_pos_nonneg; lia).
  assert (Hq : mx / 2 ^ (e1 - ex) < B * 2 ^ (- e1)).
  { apply Z.div_lt_upper_bound; [done|]. rewrite Hsplit in Hlt. lia. }
  assert (Hq0 : 0 ≤ mx / 2 ^ (e1 - ex)) by (apply Z.div_pos; lia).
  assert (Hm1b : 0 ≤ m1 ≤ B * 2 ^ (- e1)) by lia.
  assert (Hd1 : Zdigits2 m1 ≤ 53 - e1).
  { replace (53 - e1) with (52 - e1 + 1) by lia.
    apply Zdigits2_pow2_bound; [lia|]. split; [lia|].
    replace (52 - e1) with (52 + - e1) by lia. rewrite Z.pow_add_r by lia. nia. }
  assert (He2b : e1 ≤ e2 ≤ 0).
  { subst e2. unfold fexp, emin, emax, prec. lia. }
  exists e1, m1, e2. repeat split; try lia.
  rewrite Hres. destruct (m1 / 2 ^ (e2 - e1)); try done.
  rewrite (proj2 (Z.leb_le e2 (emax - prec))); [done|]. unfold emax, prec. lia.
Qed.

Lemma binary_round_aux_in_bound (B mx ex : Z) (lx : location) :
  0 ≤ mx → ex ≤ 0 → 0 < B ≤ 2 ^ 52 → mx < B * 2 ^ (- ex) →
  float_in_range B (binary_round_aux prec emax false mx ex lx).
Proof.
  intros Hmx Hex HB Hlt.
  destruct (binary_round_aux_range B mx ex lx Hmx Hex HB Hlt)
    as (e1 & m1 & e2 & He12 & He2 & _ & _ & Hm1 & ->).
  assert (Hpowj : 0 < 2 ^ (e2 - e1)) by (apply Z.pow_pos_nonneg; lia).
  assert (Hsplit : 2 ^ (- e1) = 2 ^ (- e2) * 2 ^ (e2 - e1)).
  { rewrite <- Z.pow_add_r by lia. f_equal. lia. }
  assert (Hle : m1 / 2 ^ (e2 - e1) ≤ B * 2 ^ (- e2)).
  { apply Z.div_le_upper_bound; [done|]. rewrite Hsplit in Hm1. lia. }
  assert (Hge : 0 ≤ m1 / 2 ^ (e2 - e1)) by (apply Z.div_pos; lia).
  destruct (m1 / 2 ^ (e2 - e1)); simpl; [done|lia|lia].
Qed.

Lemma Zdigits2_pow2 (n : Z) : 0 ≤ n → Zdigits2 (2 ^ n) = n + 1.
Proof.
  intros Hn. rewrite Zdigits2_log2 by (apply Z.pow_pos_nonneg; lia).
  by rewrite Z.log2_pow2.
Qed.

(** A quotient of two counts below one is 1.0 or strictly below it. *)
Lemma int_truediv_below_one (a b : Z) :
  0 < a < b →
  ∃ q, int_truediv a b = Returned q ∧ (q = float_one ∨ float_below 1 q).
Proof.
  intros [Ha Hab]. unfold int_truediv.
  destruct (Z.eqb_spec b 0); [lia|]. destruct (Z.ltb_spec b 0); [lia|].
  destruct (Z.eqb_spec a 0); [lia|]. destruct (Z.ltb_spec a 0); [lia|].
  rewrite !Z.abs_eq by lia. unfold SFdiv_core_binary. simpl xorb.
  pose proof (Zdigits2_mono a b ltac:(lia)) as Hd.
  pose proof (Zdigits2_nonneg a).
  set (e' := Z.min (fexp prec emax (Zdigits2 a + 0 - (Zdigits2 b + 0))) (0 - 0)).
  assert (He' : -1074 ≤ e' ≤ -53).
  { unfold e', fexp, emin, prec, emax. lia. }
  destruct (0 - 0 - e') as [|k|k] eqn:Hk; try lia.
  rewrite div_eucl_fst_snd, Z.shiftl_mul_pow2 by lia.
  set (mz := a * 2 ^ Z.pos k / b).
  assert (Hke : Z.pos k = - e') by lia.
  assert (Hpk : 0 < 2 ^ Z.pos k) by (apply Z.pow_pos_nonneg; lia).
  assert (Hmz : 0 ≤ mz < 2 ^ Z.pos k).
  { unfold mz. split; [apply Z.div_pos; lia|].
    apply Z.div_lt_upper_bound; [lia|]. nia. }
  destruct (binary_round_aux_range 1 mz e' (new_location b ((a * 2 ^ Z.pos k) `mod` b)))
    as (e1 & m1 & e2 & He12 & He2 & He1 & He2eq & Hm1 & ->);
    [lia|lia|lia|rewrite <- Hke; lia|].
  assert (Hdz : Zdigits2 mz ≤ - e').
  { apply Zdigits2_lt_pow2; [lia|]. by rewrite <- Hke. }
  assert (He1b : e1 ≤ -53).
  { subst e1. unfold fexp, emin, prec, emax. lia. }
  assert (Hpowj : 0 < 2 ^ (e2 - e1)) by (apply Z.pow_pos_nonneg; lia).
  assert (Hge : 0 ≤ m1 / 2 ^ (e2 - e1)) by (apply Z.div_pos; lia).
  rewrite Z.mul_1_l in Hm1.
  destruct (decide (m1 = 2 ^ (- e1))) as [Heq|Hne].
  - assert (He2v : e2 = -52).
    { rewrite He2eq, Heq, Zdigits2_pow2 by lia.
      unfold fexp, emin, prec, emax. lia. }
    assert (Hm : m1 / 2 ^ (e2 - e1) = 4503599627370496).
    { rewrite Heq, <- Z.pow_sub_r by lia. rewrite He2v.
      replace (- e1 - (-52 - e1)) with 52 by lia. reflexivity. }
    rewrite Hm, He2v. eexists. split; [reflexivity|]. by left.
  - assert (Hsplit : 2 ^ (- e1) = 2 ^ (- e2) * 2 ^ (e2 - e1)).
    { rewrite <- Z.pow_add_r by lia. f_equal. lia. }
    assert (Hlt : m1 / 2 ^ (e2 - e1) < 2 ^ (- e2)).
    { apply Z.div_lt_upper_bound; [done|]. rewrite Hsplit in Hm1, Hne. lia. }
    destruct (m1 / 2 ^ (e2 - e1)) as [|m|m] eqn:Hdiv; [| |lia].
    + eexists. split; [reflexivity|]. by right.
    + eexists. split; [reflexivity|]. right. simpl. lia.
Qed.

Lemma float_of_int_100 : float_of_int 100 = S754_finite false 7036874417766400 (-46).
Proof. vm_compute. reflexivity. Qed.

Lemma float_mul_100_in_range (q : spec_float) :
  q = float_one ∨ float_below 1 q → float_in_range 100 (float_mul_int q 100).
Proof.
  intros [->|Hq].
  - vm_compute. split; [discriminate|]. discriminate.
  - unfold float_mul_int. rewrite float_of_int_100.
    destruct q as [[]|[]| |[] m e]; try done. simpl in Hq. destruct Hq as [He Hm].
    unfold SFmul. simpl xorb.
    assert (Hpow : 0 < 2 ^ (- e)) by (apply Z.pow_pos_nonneg; lia).
    apply binary_round_aux_in_bound; [lia|lia|split; [lia|]|].
    + apply Z.lt_le_incl. reflexivity.
    + replace (- (e + -46)) with (46 + - e) by lia.
      rewrite Z.pow_add_r, Pos2Z.inj_mul by lia.
      change (2 ^ 46) with 70368744177664. lia.
Qed.

Lemma tenths_in_range (m : positive) (e : Z) :
  float_in_range 100 (S754_finite false m e) → 0 ≤ tenths m e ≤ 1000.
Proof.
  simpl. intros [He Hm]. unfold tenths. destruct e as [|k|k]; [|lia|].
  - change (- 0) with 0 in Hm. rewrite Z.pow_0_r in *. lia.
  - change (- Z.neg k) with (Z.pos k) in Hm.
    assert (Hpow : 0 < 2 ^ Z.pos k) by (apply Z.pow_pos_nonneg; lia).
    set (den := 2 ^ Z.pos k) in *.
    pose proof (Z.div_mod (Z.pos m * 10) den ltac:(lia)) as Hdm.
    pose proof (Z.mod_pos_bound (Z.pos m * 10) den Hpow) as Hr.
    assert (Hq0 : 0 ≤ Z.pos m * 10 / den) by (apply Z.div_pos; lia).
    assert (Hq : Z.pos m * 10 / den ≤ 1000).
    { apply Z.div_le_upper_bound; lia. }
    set (q := Z.pos m * 10 / den) in *. set (r := (Z.pos m * 10) `mod` den) in *.
    destruct (Z.compare_spec (2 * r) den) as [Hc|Hc|Hc].
    + destruct (Z.even q); nia.
    + lia.
    + nia.
Qed.

(** X3: for every table with at least one row the fraud rate is a binary64
    number between 0 and 100, and the tile shows it as "t/10 . t mod 10"
    for a number of tenths [t] between 0 and 1000. *)
Theorem fraud_rate_between_0_and_100 (df : DataFrame) :
  df ≠ [] →
  ∃ x t,
    fraud_rate df = Returned x
    ∧ float_in_range 100 x
    ∧ 0 ≤ t ≤ 1000
    ∧ fraud_rate_text df
      = Returned ((str_of_N (Z.to_N (t / 10)) +:+ "." +:+ str_of_N (Z.to_N (t mod 10)))
                  +:+ "%").
Proof.
  intros Hne. pose proof (len_pos df Hne) as Hlen.
  assert (Hle : 0 ≤ len (where_suspicious df) ≤ len df).
  { unfold len, where_suspicious.
    pose proof (length_filter (λ r, is_suspicious r = true) df). lia. }
  assert (Hx : ∃ x, fraud_rate df = Returned x ∧ float_in_range 100 x).
  { unfold fraud_rate.
    destruct (decide (len (where_suspicious df) = 0)) as [H0|H0].
    - rewrite H0, int_truediv_zero by done. eexists. split; [reflexivity|].
      vm_compute. done.
    - destruct (decide (len (where_suspicious df) = len df)) as [H1|H1].
      + rewrite H1, int_truediv_self by done. eexists. split; [reflexivity|].
        apply float_mul_100_in_range. by left.
      + destruct (int_truediv_below_one (len (where_suspicious df)) (len df))
          as (q & -> & Hq); [lia|].
        eexists. split; [reflexivity|]. by apply float_mul_100_in_range. }
  destruct Hx as (x & Hx & Hrange). unfold fraud_rate_text. rewrite Hx.
  destruct x as [[]|[]| |[] m e]; try done.
  - exists (S754_zero false), 0. split; [done|]. split; [done|]. split; [lia|]. reflexivity.
  - exists (S754_finite false m e), (tenths m e).
    split; [done|]. split; [done|]. split; [by apply tenths_in_range|]. reflexivity.
Qed.

Lemma fraud_rate_between_0_and_100_witness :
  ∃ x, fraud_rate scenario_table = Returned x ∧ float_in_range 100 x.
Proof.
  destruct (fraud_rate_between_0_and_100 scenario_table) as (x & t & Hx & Hr & _);
    [discriminate|].
  exists x. by split.
Defined.
End FloatRange.

(** ** The order of group keys *)

#[global] Instance key_le_total : Total key_le.
Proof.
  intros a b. unfold key_le.
  destruct (decide (a.1 = b.1)) as [Heq|Hne].
  - rewrite decide_True by done. apply (total String.le).
  - rewrite decide_False by congruence. apply (total String.le).
Qed.

#[global] Instance key_le_antisymm : AntiSymm (=) key_le.
Proof.
  intros [a1 a2] [b1 b2]. unfold key_le. simpl.
  destruct (decide (a1 = b1)) as [->|Hne].
  - rewrite decide_True by done. intros H1 H2.
    f_equal. by apply (anti_symm String.le).
  - rewrite decide_False by congruence. intros H1 H2.
    destruct Hne. by apply (anti_symm String.le).
Qed.

#[global] Instance key_le_trans : Transitive key_le.
Proof.
  intros [a1 a2] [b1 b2] [c1 c2]. unfold key_le. simpl.
  destruct (decide (a1 = b1)) as [Hab|Hab], (decide (b1 = c1)) as [Hbc|Hbc],
    (decide (a1 = c1)) as [Hac|Hac]; subst; try done; intros Hle1 Hle2.
  - by apply (transitivity (R:=String.le)) with b2.
  - destruct Hab. by apply (anti_symm String.le).
  - by apply (transitivity (R:=String.le)) with b1.
Qed.

(** ** Sorted distinct values *)

Section SortedUnique.
Context {K : Type} `{Countable K}.
Context (R : relation K) `{∀ x y, Decision (R x y)}.



End SortedUnique.









(** ** The grouped counts behind the pivot *)

